(** * say_digit: digit names of an integer

    Shallow embedding of [src/python/say_digit.py] and the properties of
    its single function [say_digit].

    Python integers are unbounded, so they are [Z]; [%] and [//] with a
    positive divisor are floor modulo and floor division, which is what
    [Z.modulo] and [Z.div] compute.  Strings are immutable values
    ([string]).  A list is a heap object: the list display on the first
    line of the body allocates a fresh list at every call, so the model
    threads an object store through the computation.  A call may raise;
    the nesting of calls is bounded by the interpreter's recursion limit,
    which the model takes as the [depth] argument. *)

From Stdlib Require Import ZArith List String Lia Bool.
Import ListNotations.
Open Scope string_scope.
Open Scope Z_scope.

(** ** Python run-time model *)

Module Py.

(** Exceptions the body of [say_digit] can raise. *)
Inductive exn : Type :=
| IndexError
| RecursionError.

Inductive outcome (A : Type) : Type :=
| Ok (a : A)
| Raise (e : exn).
Arguments Ok {A} a.
Arguments Raise {A} e.

(** The object store: list objects, addressed by position. *)
Definition addr := nat.
Definition heap := list (list string).

(** Computations that read and extend the store and may raise. *)
Definition M (A : Type) : Type := heap -> outcome (A * heap).

Definition ret {A} (a : A) : M A := fun h => Ok (a, h).

Definition bind {A B} (m : M A) (k : A -> M B) : M B :=
  fun h =>
    match m h with
    | Ok (a, h') => k a h'
    | Raise e => Raise e
    end.

Definition raise {A} (e : exn) : M A := fun _ => Raise e.

(** A list display [[x0, x1, ...]]: a new object at a fresh address. *)
Definition new_list (l : list string) : M addr :=
  fun h => Ok (List.length h, (h ++ [l])%list).

(** Subscription on a list value: indices [0 .. len-1] count from the
    front, [-len .. -1] from the back, anything else is out of range. *)
Definition index (l : list string) (i : Z) : option string :=
  let len := Z.of_nat (List.length l) in
  if 0 <=? i then nth_error l (Z.to_nat i)
  else if - len <=? i then nth_error l (Z.to_nat (len + i))
  else None.

(** [a[i]] on the list object at address [a]. *)
Definition getitem (a : addr) (i : Z) : M string :=
  fun h =>
    match nth_error h a with
    | Some l =>
        match index l i with
        | Some s => Ok (s, h)
        | None => Raise IndexError
        end
    | None => Raise IndexError
    end.

End Py.

Import Py.

Notation "x <- m ;; k" := (bind m (fun x => k))
  (at level 61, m at next level, right associativity).

(** ** The program *)

(** The literal of line 2. *)
Definition words_literal : list string :=
  ["zero"; "one"; "two"; "three"; "four";
   "five"; "six"; "seven"; "eight"; "nine"].

(** [say_digit], statement by statement.  [depth] is the number of
    nested calls still allowed. *)
Fixpoint say_digit (depth : nat) (digit : Z) : M string :=
  match depth with
  | O => raise RecursionError
  | S depth' =>
      words <- new_list words_literal ;;
      if digit =? 0 then ret ""
      else
        let digit := digit mod 10 in
        let remaining := digit / 10 in
        w <- getitem words digit ;;
        rest <- say_digit depth' remaining ;;
        ret (w ++ rest)%string
  end.

(** The default recursion limit of CPython. *)
Definition recursion_limit : nat := 1000.

(** The returned string of a top-level call in an empty store. *)
Definition returned (n : Z) : option string :=
  match say_digit recursion_limit n [] with
  | Ok (s, _) => Some s
  | Raise _ => None
  end.

(** The word the table holds for a digit [d] in [0 .. 9]. *)
Definition word_of (d : Z) : string :=
  nth (Z.to_nat d) words_literal "".

(** ** The operation as the specification words it

    Steps 1 to 3 of the contract: the empty string for [0], otherwise the
    table entry of [n mod 10] followed by the result for [n div 10].
    [fuel] bounds the number of unfoldings. *)
Fixpoint say_digit_spec (fuel : nat) (n : Z) : option string :=
  match fuel with
  | O => None
  | S fuel' =>
      if n =? 0 then Some ""
      else
        let d := n mod 10 in
        let r := n / 10 in
        match index words_literal d, say_digit_spec fuel' r with
        | Some w, Some rest => Some (w ++ rest)%string
        | _, _ => None
        end
  end.

(** [a ++ b] on optional strings, for equations between results. *)
Definition concat_results (a b : option string) : option string :=
  match a, b with
  | Some x, Some y => Some (x ++ y)%string
  | _, _ => None
  end.

Example returned_7 : returned 7 = Some "seven".
Proof. reflexivity. Qed.

Example returned_12 : returned 12 = Some "two".
Proof. reflexivity. Qed.

Example returned_m1 : returned (-1) = Some "nine".
Proof. reflexivity. Qed.

Example spec_12 : say_digit_spec 5 12 = Some "twoone".
Proof. reflexivity. Qed.

(** ** Arithmetic of the body *)

Section Arithmetic.

Variable n : Z.

Lemma digit_range : 0 <= n mod 10 < 10.
Proof. apply Z.mod_pos_bound; lia. Qed.

(** Line 8 divides the value line 7 has already reduced. *)
Lemma remaining_is_zero : (n mod 10) / 10 = 0.
Proof. apply Z.div_small, digit_range. Qed.

End Arithmetic.

(** ** The table *)

Lemma words_length : List.length words_literal = 10%nat.
Proof. reflexivity. Qed.

Lemma index_words (d : Z) :
  0 <= d < 10 -> index words_literal d = Some (word_of d).
Proof.
  intros Hd. unfold index, word_of.
  destruct (Z.leb_spec 0 d) as [_ | Hneg]; [| lia].
  apply nth_error_nth'. rewrite words_length. lia.
Qed.

Lemma word_of_in (d : Z) : 0 <= d < 10 -> In (word_of d) words_literal.
Proof.
  intros Hd. unfold word_of. apply nth_In. rewrite words_length. lia.
Qed.

(** ** The store *)

Lemma getitem_fresh (h : heap) (l : list string) (i : Z) :
  getitem (List.length h) i (h ++ [l])%list =
  match index l i with
  | Some s => Ok (s, (h ++ [l])%list)
  | None => Raise IndexError
  end.
Proof.
  unfold getitem. rewrite nth_error_app2 by lia.
  rewrite Nat.sub_diag. reflexivity.
Qed.

(** ** One call, case by case *)

Lemma say_digit_no_depth (n : Z) (h : heap) :
  say_digit 0 n h = Raise RecursionError.
Proof. reflexivity. Qed.

Lemma say_digit_zero (depth : nat) (h : heap) :
  say_digit (S depth) 0 h = Ok ("", (h ++ [words_literal])%list).
Proof. reflexivity. Qed.

Lemma say_digit_step (depth : nat) (n : Z) (h : heap) :
  n <> 0 ->
  say_digit (S depth) n h =
  match say_digit depth 0 (h ++ [words_literal])%list with
  | Ok (rest, h') => Ok ((word_of (n mod 10) ++ rest)%string, h')
  | Raise e => Raise e
  end.
Proof.
  intros Hn. cbn [say_digit]. unfold bind at 1, new_list.
  destruct (Z.eqb_spec n 0) as [E | _]; [contradiction |].
  cbv zeta. unfold bind at 1. rewrite getitem_fresh.
  rewrite (index_words (n mod 10) (digit_range n)).
  rewrite remaining_is_zero. unfold bind, ret.
  destruct (say_digit depth 0 (h ++ [words_literal])%list) as [[rest h'] | e];
    reflexivity.
Qed.

Lemma append_empty (s : string) : (s ++ "")%string = s.
Proof. induction s as [| c s IH]; cbn; [| rewrite IH]; reflexivity. Qed.

Lemma say_digit_nonzero (depth : nat) (n : Z) (h : heap) :
  n <> 0 ->
  say_digit (S (S depth)) n h =
  Ok (word_of (n mod 10), (h ++ [words_literal; words_literal])%list).
Proof.
  intros Hn. rewrite (say_digit_step _ _ _ Hn), say_digit_zero.
  rewrite append_empty, <- app_assoc. reflexivity.
Qed.

Lemma say_digit_shallow (n : Z) (h : heap) :
  n <> 0 -> say_digit 1 n h = Raise RecursionError.
Proof.
  intros Hn. rewrite (say_digit_step _ _ _ Hn). reflexivity.
Qed.

(** Every outcome of a call, by the depth left and the argument. *)
Lemma say_digit_cases (depth : nat) (n : Z) (h : heap) :
  say_digit depth n h =
  match depth with
  | O => Raise RecursionError
  | S O =>
      if n =? 0 then Ok ("", (h ++ [words_literal])%list)
      else Raise RecursionError
  | S (S _) =>
      if n =? 0 then Ok ("", (h ++ [words_literal])%list)
      else Ok (word_of (n mod 10),
               (h ++ [words_literal; words_literal])%list)
  end.
Proof.
  destruct depth as [| [| depth]]; [reflexivity | |];
    destruct (Z.eqb_spec n 0) as [-> | Hn];
    auto using say_digit_zero, say_digit_shallow, say_digit_nonzero.
Qed.

(** What a call that returns has returned, and what it left in the store. *)
Lemma say_digit_ok_inv (depth : nat) (n : Z) (h h' : heap) (s : string) :
  say_digit depth n h = Ok (s, h') ->
  s = (if n =? 0 then "" else word_of (n mod 10)) /\
  exists k, h' = (h ++ repeat words_literal k)%list.
Proof.
  rewrite say_digit_cases.
  destruct depth as [| [| depth]]; [discriminate | |];
    destruct (n =? 0); intros E; inversion E; subst; split; trivial;
    solve [ now exists 1%nat | now exists 2%nat ].
Qed.

Lemma returned_eq (n : Z) :
  returned n = Some (if n =? 0 then "" else word_of (n mod 10)).
Proof.
  unfold returned. rewrite say_digit_cases.
  change recursion_limit with (S (S 998)). cbv iota.
  destruct (n =? 0); reflexivity.
Qed.

(** * Properties of [say_digit] *)

(** C1.  The contract asks, for [n <> 0], for the table entry of
    [n mod 10] followed by the result for [n div 10].  At [n = 12] the
    code returns ["two"], whereas the entry of [12 mod 10] followed by the
    code's own result for [12 div 10] is ["twoone"], which is also what
    the operation as specified returns. *)
Theorem say_digit_recursive_equation_at_12 :
  returned 12 = Some "two" /\
  concat_results (index words_literal (12 mod 10)) (returned (12 / 10))
    = Some "twoone" /\
  say_digit_spec recursion_limit 12 = Some "twoone".
Proof. repeat split; reflexivity. Qed.

(** C2.  [say_digit(0)] returns the empty string: at any depth that
    allows the call at all, and whatever the store holds. *)
Theorem say_digit_zero_is_empty (depth : nat) (h : heap) :
  (exists h', say_digit (S depth) 0 h = Ok ("", h')) /\
  returned 0 = Some "" /\
  String.eqb "" "zero" = false.
Proof.
  split; [| split].
  - eexists. apply say_digit_zero.
  - reflexivity.
  - reflexivity.
Qed.

(** C3.  A single digit [d] in [1 .. 9] is answered by entry [d] of the
    table; in particular [5] by ["five"] and [9] by ["nine"]. *)
Theorem say_digit_single_digit (d : Z) :
  1 <= d <= 9 ->
  returned d = index words_literal d /\
  (forall depth h, exists w h',
      say_digit (S (S depth)) d h = Ok (w, h') /\
      index words_literal d = Some w) /\
  returned 5 = Some "five" /\
  returned 9 = Some "nine".
Proof.
  intros Hd.
  assert (Hmod : d mod 10 = d) by (apply Z.mod_small; lia).
  assert (Hnz : d <> 0) by lia.
  assert (Hix : index words_literal d = Some (word_of d))
    by (apply index_words; lia).
  repeat split; try reflexivity.
  - rewrite returned_eq, Hmod, Hix.
    destruct (Z.eqb_spec d 0); [contradiction | reflexivity].
  - intros depth h. eexists; eexists; split; [| exact Hix].
    rewrite (say_digit_nonzero _ _ _ Hnz), Hmod. reflexivity.
Qed.

Lemma say_digit_single_digit_witness :
  returned 7 = index words_literal 7 /\
  (forall depth h, exists w h',
      say_digit (S (S depth)) 7 h = Ok (w, h') /\
      index words_literal 7 = Some w) /\
  returned 5 = Some "five" /\
  returned 9 = Some "nine".
Proof. apply (say_digit_single_digit 7). lia. Defined.

(** C4.  [say_digit(12)] is claimed to be ["twoone"]; the code returns
    ["two"], the word of the units digit alone. *)
Theorem say_digit_12 :
  returned 12 = Some "two" /\
  say_digit 2 12 [] = Ok ("two", [words_literal; words_literal]) /\
  String.eqb "two" "twoone" = false /\
  say_digit_spec recursion_limit 12 = Some "twoone".
Proof. repeat split; reflexivity. Qed.

(** C5.  [say_digit(10)] is claimed to be ["zeroone"]; the code returns
    ["zero"]: entry 0 of the table is emitted for the units digit, and
    the tens digit is never reached. *)
Theorem say_digit_10 :
  returned 10 = Some "zero" /\
  index words_literal 0 = Some "zero" /\
  String.eqb "zero" "zeroone" = false /\
  say_digit_spec recursion_limit 10 = Some "zeroone".
Proof. repeat split; reflexivity. Qed.

(** C6.  [say_digit] is a pure function of its argument: two calls on the
    same integer that return, at whatever depths and in whatever stores,
    return the same string, and a call leaves every object that was in
    the store before it as it was. *)
Theorem say_digit_pure (n : Z) (d1 d2 : nat) (h1 h2 h1' h2' : heap)
    (s1 s2 : string) :
  say_digit d1 n h1 = Ok (s1, h1') ->
  say_digit d2 n h2 = Ok (s2, h2') ->
  s1 = s2 /\
  (forall a l, nth_error h1 a = Some l -> nth_error h1' a = Some l).
Proof.
  intros E1 E2.
  destruct (say_digit_ok_inv _ _ _ _ _ E1) as [-> [k ->]].
  destruct (say_digit_ok_inv _ _ _ _ _ E2) as [-> _].
  split; [reflexivity |].
  intros a l Ha. rewrite nth_error_app1; [exact Ha |].
  apply nth_error_Some. rewrite Ha. discriminate.
Qed.

Lemma say_digit_pure_witness :
  "two" = "two" /\
  (forall a l,
      nth_error [["a"; "b"]] a = Some l ->
      nth_error [["a"; "b"]; words_literal; words_literal] a = Some l).
Proof.
  apply (say_digit_pure 12 2 7 [["a"; "b"]]
           [] [["a"; "b"]; words_literal; words_literal]
           [words_literal; words_literal] "two" "two");
    reflexivity.
Defined.

(** C7.  The digit table is a sequence of exactly ten strings, ["zero"]
    at index 0 through ["nine"] at index 9, and the program never changes
    one: when a call returns, the store is the store it was given followed
    by the tables the call and its nested call created, each still equal
    to the literal. *)
Theorem words_table_fixed (depth : nat) (n : Z) (h h' : heap) (s : string) :
  say_digit depth n h = Ok (s, h') ->
  List.length words_literal = 10%nat /\
  map (index words_literal) [0; 1; 2; 3; 4; 5; 6; 7; 8; 9] =
    map Some ["zero"; "one"; "two"; "three"; "four";
              "five"; "six"; "seven"; "eight"; "nine"] /\
  exists k, h' = (h ++ repeat words_literal k)%list.
Proof.
  intros E. repeat split.
  exact (proj2 (say_digit_ok_inv _ _ _ _ _ E)).
Qed.

Lemma words_table_fixed_witness :
  List.length words_literal = 10%nat /\
  map (index words_literal) [0; 1; 2; 3; 4; 5; 6; 7; 8; 9] =
    map Some ["zero"; "one"; "two"; "three"; "four";
              "five"; "six"; "seven"; "eight"; "nine"] /\
  exists k,
    [["a"]; words_literal; words_literal] =
    ([["a"]] ++ repeat words_literal k)%list.
Proof.
  apply (words_table_fixed 3 305 [["a"]]
           [["a"]; words_literal; words_literal] "five").
  reflexivity.
Defined.

(** C8.  On a non-negative integer [say_digit] terminates: it returns
    within two nested calls, whatever the store, since the value passed
    to the nested call is [0], on which a call returns at once; more
    depth changes nothing. *)
Theorem say_digit_terminates (n : Z) (h : heap) :
  0 <= n ->
  (exists s h', say_digit 2 n h = Ok (s, h')) /\
  (n mod 10) / 10 = 0 /\
  (forall depth, say_digit (S (S depth)) n h = say_digit 2 n h).
Proof.
  intros _. split; [| split].
  - rewrite say_digit_cases. destruct (n =? 0); eauto.
  - apply remaining_is_zero.
  - intros depth. rewrite !say_digit_cases. reflexivity.
Qed.

Lemma say_digit_terminates_witness :
  (exists s h', say_digit 2 4711 [] = Ok (s, h')) /\
  (4711 mod 10) / 10 = 0 /\
  (forall depth, say_digit (S (S depth)) 4711 [] = say_digit 2 4711 []).
Proof. apply (say_digit_terminates 4711 []). lia. Defined.

(** C9.  On every integer [n <> 0] the result is exactly one word of the
    table, the entry of [n mod 10], which lies in [0 .. 9]: the value
    handed to the nested call is [(n mod 10) div 10 = 0], so no second
    word is ever appended. *)
Theorem say_digit_single_word (n : Z) (depth : nat) (h : heap) :
  n <> 0 ->
  exists w h',
    say_digit (S (S depth)) n h = Ok (w, h') /\
    index words_literal (n mod 10) = Some w /\
    In w words_literal /\
    0 <= n mod 10 <= 9 /\
    (n mod 10) / 10 = 0 /\
    returned n = Some w.
Proof.
  intros Hn. pose proof (digit_range n) as Hd.
  exists (word_of (n mod 10)). eexists.
  split; [apply (say_digit_nonzero _ _ _ Hn) |].
  split; [apply index_words, Hd |].
  split; [apply word_of_in, Hd |].
  split; [lia |].
  split; [apply remaining_is_zero |].
  rewrite returned_eq.
  destruct (Z.eqb_spec n 0); [contradiction | reflexivity].
Qed.

Lemma say_digit_single_word_witness :
  exists w h',
    say_digit (S (S 0)) 9876 [] = Ok (w, h') /\
    index words_literal (9876 mod 10) = Some w /\
    In w words_literal /\
    0 <= 9876 mod 10 <= 9 /\
    (9876 mod 10) / 10 = 0 /\
    returned 9876 = Some w.
Proof. apply (say_digit_single_word 9876 0 []). lia. Defined.

(** C10.  No integer makes [say_digit] raise, negative ones included:
    the subscript [n mod 10] lies in [0 .. 9] and so finds an entry of
    the table; with room for two nested calls the call returns, and at no
    depth is the lookup out of range.  [say_digit(-1)] returns ["nine"]. *)
Theorem say_digit_never_raises (n : Z) (depth : nat) (h : heap) :
  0 <= n mod 10 <= 9 /\
  (exists w, index words_literal (n mod 10) = Some w) /\
  (exists s h', say_digit (S (S depth)) n h = Ok (s, h')) /\
  (forall d,
      (exists s h', say_digit d n h = Ok (s, h')) \/
      say_digit d n h = Raise RecursionError) /\
  returned (-1) = Some "nine".
Proof.
  pose proof (digit_range n) as Hd.
  split; [lia |].
  split; [eexists; apply index_words, Hd |].
  split; [rewrite say_digit_cases; destruct (n =? 0); eauto |].
  split; [| reflexivity].
  intros d. rewrite say_digit_cases.
  destruct d as [| [| d]]; destruct (n =? 0); eauto.
Qed.

(** * Further properties of [say_digit] *)

(** ** The words of the table *)

Lemma words_nodup : NoDup words_literal.
Proof.
  unfold words_literal.
  repeat (constructor; [cbn; intuition discriminate |]).
  constructor.
Qed.

Lemma words_sizes (w : string) :
  In w words_literal -> (3 <= String.length w <= 5)%nat.
Proof.
  unfold words_literal. cbn [In].
  intros H; repeat (destruct H as [<- | H]; [cbn; lia |]); contradiction.
Qed.

Lemma word_of_inj (d e : Z) :
  0 <= d < 10 -> 0 <= e < 10 -> word_of d = word_of e -> d = e.
Proof.
  intros Hd He E. unfold word_of in E.
  apply (proj1 (NoDup_nth words_literal "") words_nodup) in E;
    rewrite ?words_length; lia.
Qed.

Lemma word_of_nonempty (d : Z) : 0 <= d < 10 -> word_of d <> "".
Proof.
  intros Hd E. pose proof (words_sizes _ (word_of_in d Hd)) as Hs.
  rewrite E in Hs. cbn in Hs. lia.
Qed.

Lemma returned_nonzero (n : Z) :
  n <> 0 -> returned n = Some (word_of (n mod 10)).
Proof.
  intros Hn. rewrite returned_eq.
  destruct (Z.eqb_spec n 0); [contradiction | reflexivity].
Qed.

(** ** What the result tells about the argument *)

(** X1.  The result is the empty string for the argument [0] and for no
    other integer. *)
Theorem say_digit_empty_iff_zero (n : Z) :
  returned n = Some "" <-> n = 0.
Proof.
  split.
  - intros E. destruct (Z.eq_dec n 0) as [| Hn]; [assumption |].
    rewrite (returned_nonzero n Hn) in E. injection E as E.
    now apply word_of_nonempty in E; [| apply digit_range].
  - intros ->. reflexivity.
Qed.

(** X2.  Two non-zero arguments get the same result exactly when they
    have the same remainder modulo 10: the result keeps the last digit
    and nothing else. *)
Theorem say_digit_same_iff_same_last_digit (n m : Z) :
  n <> 0 -> m <> 0 ->
  (returned n = returned m <-> n mod 10 = m mod 10).
Proof.
  intros Hn Hm. rewrite (returned_nonzero n Hn), (returned_nonzero m Hm).
  split.
  - intros E. injection E as E.
    apply word_of_inj; auto using digit_range.
  - intros ->. reflexivity.
Qed.

Lemma say_digit_same_iff_same_last_digit_witness :
  returned 1234 = returned (-6) <-> 1234 mod 10 = (-6) mod 10.
Proof. apply (say_digit_same_iff_same_last_digit 1234 (-6)); lia. Defined.

(** X3.  A non-zero multiple of ten is answered by ["zero"], unlike [0]
    itself. *)
Theorem say_digit_multiple_of_ten (n : Z) :
  n <> 0 -> n mod 10 = 0 -> returned n = Some "zero".
Proof.
  intros Hn Hm. rewrite (returned_nonzero n Hn), Hm. reflexivity.
Qed.

Lemma say_digit_multiple_of_ten_witness : returned 4200 = Some "zero".
Proof. apply (say_digit_multiple_of_ten 4200); [lia | reflexivity]. Defined.

(** X4.  Negating an argument that is not a multiple of ten replaces its
    last digit [d] by [10 - d]: [say_digit(-n)] is the table entry of
    [10 - n mod 10]. *)
Theorem say_digit_negated (n : Z) :
  n mod 10 <> 0 ->
  returned (- n) = index words_literal (10 - n mod 10).
Proof.
  intros Hm. pose proof (digit_range n) as Hd.
  assert (Hn : - n <> 0) by (intros E; apply Hm;
    replace n with 0 by lia; reflexivity).
  assert (Hneg : (- n) mod 10 = 10 - n mod 10)
    by (apply Z.mod_opp_l_nz; [lia | exact Hm]).
  rewrite (returned_nonzero _ Hn), Hneg.
  symmetry. apply index_words. lia.
Qed.

Lemma say_digit_negated_witness :
  returned (- 37) = index words_literal (10 - 37 mod 10).
Proof. apply (say_digit_negated 37). discriminate. Defined.

(** X5.  The results are the empty string and the ten words of the table,
    each of which is the result for some argument. *)
Theorem say_digit_range (s : string) :
  (exists n, returned n = Some s) <-> s = "" \/ In s words_literal.
Proof.
  split.
  - intros [n E]. rewrite returned_eq in E. injection E as <-.
    destruct (n =? 0); [now left | right].
    apply word_of_in, digit_range.
  - intros [-> | Hin]; [now exists 0 |].
    destruct (In_nth _ _ "" Hin) as (i & Hi & <-).
    rewrite words_length in Hi.
    exists (Z.of_nat i + 1 * 10).
    rewrite returned_nonzero by lia.
    rewrite Z.mod_add, Z.mod_small by lia.
    unfold word_of. now rewrite Nat2Z.id.
Qed.

(** X6.  The result has at most five characters, and at least three when
    the argument is not [0], however many digits the argument has. *)
Theorem say_digit_result_size (n : Z) (s : string) :
  returned n = Some s ->
  (String.length s <= 5)%nat /\ (n <> 0 -> (3 <= String.length s)%nat).
Proof.
  intros E. rewrite returned_eq in E. injection E as <-.
  destruct (Z.eqb_spec n 0) as [-> | Hn].
  - split; [cbn; lia | intros H; now contradiction H].
  - pose proof (words_sizes _ (word_of_in _ (digit_range n))). lia.
Qed.

Lemma say_digit_result_size_witness :
  (String.length "eight" <= 5)%nat /\
  (123456789012345678 <> 0 -> (3 <= String.length "eight")%nat).
Proof.
  apply (say_digit_result_size 123456789012345678 "eight"). reflexivity.
Defined.

(** ** Calls and the store *)

(** X7.  A call that returns has created one table when the argument is
    [0] and two otherwise, one per call made, whatever the size of the
    argument. *)
Theorem say_digit_allocations (depth : nat) (n : Z) (h h' : heap)
    (s : string) :
  say_digit depth n h = Ok (s, h') ->
  List.length h' = (List.length h + (if (n =? 0)%Z then 1 else 2))%nat.
Proof.
  rewrite say_digit_cases.
  destruct depth as [| [| depth]]; [discriminate | |];
    destruct (n =? 0); intros E; inversion E; subst;
    rewrite length_app; reflexivity.
Qed.

Lemma say_digit_allocations_witness :
  List.length [["a"]; words_literal; words_literal] =
  (List.length [["a"]] + (if (907 =? 0)%Z then 1 else 2))%nat.
Proof.
  apply (say_digit_allocations 4 907 [["a"]]
           [["a"]; words_literal; words_literal] "seven").
  reflexivity.
Defined.

(** X8.  A call raises exactly when it has no depth left, or has depth
    for one call only and a non-zero argument; what it raises then is the
    recursion error. *)
Theorem say_digit_raises_iff (depth : nat) (n : Z) (h : heap) :
  (exists e, say_digit depth n h = Raise e) <->
  (depth = 0%nat \/ (depth = 1%nat /\ n <> 0)).
Proof.
  rewrite say_digit_cases.
  destruct depth as [| [| depth]]; destruct (Z.eqb_spec n 0) as [E | E];
    split; try (intros [e He]; discriminate He);
    try (intros [H | [H H']]; (discriminate H || contradiction));
    eauto.
Qed.
